(** * NetBuddy: a shallow embedding of [netbuddy.py] and its session properties

    The Python module is one class, [NetBuddy], whose methods are all static
    and share one class attribute, [active].  Every method talks to the
    outside world in two ways only: it prints lines, and it runs the [ping]
    command through [subprocess.check_output].  The embedding keeps both as an
    ordered trace of events, reads the platform name and the outcome of each
    process from an environment, and threads the [active] flag and raised
    exceptions through a small monad. *)

From Stdlib Require Import ZArith List String Ascii Bool Lia.
From Stdlib Require Import Floats DecimalString.
Import ListNotations.

Local Open Scope string_scope.
Local Open Scope Z_scope.

(** ** The part of the Python runtime the module relies on *)

Module Py.

(** The exception classes that the module defines, catches or can receive
    from the calls it makes. *)
Inductive pyclass : Type :=
| BaseException
| Exception
| ArithmeticError
| ZeroDivisionError
| OverflowError
| ValueError
| OSError
| FileNotFoundError
| PermissionError
| SubprocessError
| CalledProcessError
| NetBuddyException
| NotStartedException
| NotWindowsException
| MissingCommandException
| QuestionableException.

Definition pyclass_eqb (c d : pyclass) : bool :=
  match c, d with
  | BaseException, BaseException
  | Exception, Exception
  | ArithmeticError, ArithmeticError
  | ZeroDivisionError, ZeroDivisionError
  | OverflowError, OverflowError
  | ValueError, ValueError
  | OSError, OSError
  | FileNotFoundError, FileNotFoundError
  | PermissionError, PermissionError
  | SubprocessError, SubprocessError
  | CalledProcessError, CalledProcessError
  | NetBuddyException, NetBuddyException
  | NotStartedException, NotStartedException
  | NotWindowsException, NotWindowsException
  | MissingCommandException, MissingCommandException
  | QuestionableException, QuestionableException => true
  | _, _ => false
  end.

(** The class named in the parentheses of each [class] statement; every
    class here has a single base.  [BaseException] is the root of what an
    [except] clause may name. *)
Definition base (c : pyclass) : option pyclass :=
  match c with
  | BaseException => None
  | Exception => Some BaseException
  | ArithmeticError => Some Exception
  | ZeroDivisionError => Some ArithmeticError
  | OverflowError => Some ArithmeticError
  | ValueError => Some Exception
  | OSError => Some Exception
  | FileNotFoundError => Some OSError
  | PermissionError => Some OSError
  | SubprocessError => Some Exception
  | CalledProcessError => Some SubprocessError
  | NetBuddyException => Some BaseException      (* line 34 *)
  | NotStartedException => Some NetBuddyException
  | NotWindowsException => Some NetBuddyException
  | MissingCommandException => Some NetBuddyException
  | QuestionableException => Some NetBuddyException
  end.

(** Method resolution order with single inheritance: the class, then the
    order of its base. *)
Fixpoint mro_from (fuel : nat) (c : pyclass) : list pyclass :=
  match fuel with
  | O => []
  | S fuel' =>
      c :: match base c with
           | None => []
           | Some b => mro_from fuel' b
           end
  end.

Definition mro (c : pyclass) : list pyclass := mro_from 16 c.

Definition issubclass (c d : pyclass) : bool :=
  existsb (pyclass_eqb d) (mro c).

(** A raised exception: its class and the message it was built with. *)
Record exn : Type := mkExn { exn_class : pyclass; exn_msg : string }.

(** [except handler:] catches [e] when [e] is an instance of [handler]. *)
Definition catches (handler : pyclass) (e : exn) : bool :=
  issubclass (exn_class e) handler.

Definition bytes : Type := list Byte.byte.

(** Why the operating system could not launch a command: the program was
    not found, access to it was denied, or any other failure it reports. *)
Inductive launch_error : Type :=
| FileNotFound
| PermissionDenied
| OtherOSError.

(** The class of the [OSError] Python raises for each. *)
Definition launch_error_class (err : launch_error) : pyclass :=
  match err with
  | FileNotFound => FileNotFoundError
  | PermissionDenied => PermissionError
  | OtherOSError => OSError
  end.

(** What the operating system does with one command line: the process runs
    and exits with a status and its captured standard output, or it cannot
    be launched at all. *)
Inductive proc_outcome : Type :=
| Exited (returncode : Z) (stdout : bytes)
| NotLaunched (err : launch_error) (reason : string).

(** The world a call runs in: [os.name], the outcome of each command, and the
    text the [subprocess] module gives a [CalledProcessError] for a command
    and its exit status. *)
Record env : Type := mkEnv {
  os_name : string;
  run_process : list string -> proc_outcome;
  error_text : list string -> Z -> string
}.

(** The class attribute [NetBuddy.active] is the whole mutable state. *)
Record state : Type := mkState { active : bool }.

(** What a call does to the outside: lines printed and commands executed,
    in order. *)
Inductive event : Type :=
| Print (line : string)
| Exec (argv : list string).

Inductive res (A : Type) : Type :=
| Ret (a : A)
| Raise (e : exn).
Arguments Ret {A} a.
Arguments Raise {A} e.

(** A computation reads the environment, may change the state, emits a
    trace, and either returns or raises. *)
Definition M (A : Type) : Type := env -> state -> res A * state * list event.

Definition ret {A} (a : A) : M A := fun _ s => (Ret a, s, []).

Definition raise {A} (e : exn) : M A := fun _ s => (Raise e, s, []).

Definition bind {A B} (m : M A) (k : A -> M B) : M B :=
  fun w s =>
    match m w s with
    | (Ret a, s1, t1) =>
        match k a w s1 with
        | (r, s2, t2) => (r, s2, (t1 ++ t2)%list)
        end
    | (Raise e, s1, t1) => (Raise e, s1, t1)
    end.

(** [try: body / except c: handler / else: orelse]. *)
Definition try_except_else {A B} (body : M A) (c : pyclass)
           (handler : M B) (orelse : A -> M B) : M B :=
  fun w s =>
    match body w s with
    | (Ret a, s1, t1) =>
        match orelse a w s1 with
        | (r, s2, t2) => (r, s2, (t1 ++ t2)%list)
        end
    | (Raise e, s1, t1) =>
        if catches c e then
          match handler w s1 with
          | (r, s2, t2) => (r, s2, (t1 ++ t2)%list)
          end
        else (Raise e, s1, t1)
    end.

Definition print (line : string) : M unit := fun _ s => (Ret tt, s, [Print line]).

Definition get_name : M string := fun w s => (Ret (os_name w), s, []).

Definition get_active : M bool := fun _ s => (Ret (active s), s, []).

Definition set_active (b : bool) : M unit := fun _ _ => (Ret tt, mkState b, []).

(** [str] of an [int]. *)
Definition str_int (z : Z) : string := NilZero.string_of_int (Z.to_int z).

(** [subprocess.check_output(argv)]: run the command; return its output
    when it exits with status 0, raise [CalledProcessError] when it exits
    with another status, and let the operating system's error through
    ([FileNotFoundError], [PermissionError] or another [OSError]) when the
    command cannot be launched. *)
Definition check_output (argv : list string) : M bytes :=
  fun w s =>
    match run_process w argv with
    | Exited rc out =>
        if rc =? 0 then (Ret out, s, [Exec argv])
        else (Raise (mkExn CalledProcessError (error_text w argv rc)),
              s, [Exec argv])
    | NotLaunched err reason =>
        (Raise (mkExn (launch_error_class err) reason), s, [Exec argv])
    end.

(** Truth value of a [bytes] object: false exactly when it is empty. *)
Definition truthy_bytes (b : bytes) : bool :=
  match b with
  | [] => false
  | _ :: _ => true
  end.

(** [float(z)] for an [int]: the nearest binary64 number. *)
Definition float_of_int (z : Z) : M float :=
  let f := SF2Prim (binary_normalize prec emax z 0 false) in
  match Prim2SF f with
  | S754_infinity _ =>
      raise (mkExn OverflowError "int too large to convert to float")
  | _ => ret f
  end.

(** [a / b] on two [int]s: the binary64 number nearest to the exact
    quotient, whatever the size of the operands.  The quotient is taken with
    at least 56 significant bits and one more bit that records a non-zero
    remainder, and then rounded once. *)
Definition truediv (a b : Z) : M float :=
  if b =? 0 then raise (mkExn ZeroDivisionError "division by zero")
  else
    let na := Z.abs a in
    let nb := Z.abs b in
    let negative := xorb (a <? 0) (b <? 0) in
    let shift := Z.max 0 (Z.log2 nb - Z.log2 na + 56) in
    let scaled := na * 2 ^ shift in
    let sticky := if scaled mod nb =? 0 then 0 else 1 in
    let m := 2 * (scaled / nb) + sticky in
    let f := SF2Prim (binary_normalize prec emax (if negative then - m else m)
                                       (- (shift + 1)) negative) in
    match Prim2SF f with
    | S754_infinity _ =>
        raise (mkExn OverflowError
                     "integer division result too large for a float")
    | _ => ret f
    end.

(** [z * f] with an [int] on the left and a [float] on the right. *)
Definition mul_int_float (z : Z) (f : float) : M float :=
  bind (float_of_int z) (fun fz => ret (PrimFloat.mul fz f)).

(** [int(f)]: truncation towards zero. *)
Definition int_of_float (f : float) : M Z :=
  match Prim2SF f with
  | S754_zero _ => ret 0
  | S754_finite sign m e =>
      let magnitude :=
        if 0 <=? e then Z.pos m * 2 ^ e else Z.pos m / 2 ^ (- e) in
      ret (if sign then - magnitude else magnitude)
  | S754_infinity _ =>
      raise (mkExn OverflowError "cannot convert float infinity to integer")
  | S754_nan =>
      raise (mkExn ValueError "cannot convert float NaN to integer")
  end.

(** Values the methods of the class hand back to their caller. *)
Inductive value : Type :=
| VNone
| VBool (b : bool)
| VInstance.

(** Python's truth value of a returned object. *)
Definition truthy (v : value) : bool :=
  match v with
  | VNone => false
  | VBool b => b
  | VInstance => true
  end.

Definition result_of {A} (x : res A * state * list event) : res A := fst (fst x).
Definition state_of {A} (x : res A * state * list event) : state := snd (fst x).
Definition trace_of {A} (x : res A * state * list event) : list event := snd x.

(** The command lines found in a trace. *)
Fixpoint execs (t : list event) : list (list string) :=
  match t with
  | [] => []
  | Exec argv :: t' => argv :: execs t'
  | Print _ :: t' => execs t'
  end.

(** The printed lines found in a trace. *)
Fixpoint prints (t : list event) : list string :=
  match t with
  | [] => []
  | Print l :: t' => l :: prints t'
  | Exec _ :: t' => prints t'
  end.

End Py.

Export Py.

Declare Scope py_scope.
Delimit Scope py_scope with py.
Notation "x <- m ;; k" := (bind m (fun x => k))
  (at level 61, m at next level, right associativity) : py_scope.
Notation "m ;;; k" := (bind m (fun _ => k))
  (at level 61, right associativity) : py_scope.
Local Open Scope py_scope.

(** ** The class [NetBuddy] *)

Module NetBuddy.

Definition tab : string := String "009"%char EmptyString.

(** [NetBuddy.active] as the class body sets it (line 32). *)
Definition initial : state := mkState false.

(** [ensure_session_active] (lines 71-75). *)
Definition ensure_session_active : M unit :=
  a <- get_active ;;
  if negb a then
    raise (mkExn NotStartedException
                 "No session active, use NetBuddy.start() first")
  else ret tt.

(** [start] (lines 77-94). *)
Definition start : M value :=
  a <- get_active ;;
  if a then
    print "A session is already active. To quit, use NetBuddy.quit()." ;;;
    ret VNone
  else
    print "Session starting..." ;;;
    print "Checking platform..." ;;;
    name <- get_name ;;
    (if negb (String.eqb name "nt") then
       raise (mkExn NotWindowsException
                    "This program is only supported on Windows.")
     else ret tt) ;;;
    print "Looking for required commands..." ;;;
    out <- check_output ["ping"; "/?"] ;;
    (if negb (truthy_bytes out) then
       raise (mkExn MissingCommandException
                    "Missing command 'ping'. This is unexpected for Windows devices.")
     else ret tt) ;;;
    set_active true ;;;
    print "Session started. Run NetBuddy.help() for options." ;;;
    ret VNone.

(** [__init__] (lines 59-69): the body is the single call [self.start()]. *)
Definition __init__ : M value :=
  start ;;;
  ret VNone.

(** The expression [NetBuddy()]: run [__init__] on a fresh object and, when
    it returns, evaluate to that object. *)
Definition construct : M value :=
  __init__ ;;;
  ret VInstance.

(** [quit] (lines 96-100). *)
Definition quit : M value :=
  set_active false ;;;
  print "Session ended." ;;;
  ret VNone.

Definition help_lines : list string := [
  "NetBuddy by Dylan Halladay                                                           ";
  "'NetBuddy' has been omitted from the beginning of these items for readability.       ";
  "For example, to start a session, use NetBuddy.start(), not just .start()             ";
  "All options and methods print to screen and return False upon failure                ";
  "Options: ----------------------------------------------------------------------------";
  "-- .start()                       : Start NetBuddy session, required for all methods ";
  "-- .quit()                        : Cleanly quits NetBuddy session                   ";
  "-- .help()                        : Display this screen                              ";
  "Methods: ----------------------------------------------------------------------------";
  "-- .test_connection()             : Test if your device is online (alias: test)      ";
  "-- .ping(address)                 : Ping a URL or IP address                         ";
  "-- .measure_ping()                : Measure your ping (alias: measure)               ";
  "-- .send(data, url)               : Send data to a URL or IP address                 ";
  "-- .get_my_IP                     : Get this device's IP address                     ";
  "-- .get_my_hostname               : Get this device's hostname                       ";
  "-- .get_hostname(address)         : Get the hostnames of the specified device        ";
  "-- .get_IPs                       : Get the IP of every device on this network       ";
  "-- .get_hostnames                 : Get the hostname of every device on this network ";
  "Data: -------------------------------------------------------------------------------";
  "-- .active                        = True if a session is active, otherwise False     ";
  "Exceptions: -------------------------------------------------------------------------";
  "-- .NetBuddyException             - Base class for all following exceptions          ";
  "-- .NotStartedException           - Tried to use a method before starting session    ";
  "-- .NotWindowsException           - Device platform is not Windows (unsupported)     ";
  "-- .MissingCommandException       - Required command was not found                   ";
  "How to import: ----------------------------------------------------------------------";
  "from netbuddy import NetBuddy                                                        "
].

Fixpoint print_all (lines : list string) : M unit :=
  match lines with
  | [] => ret tt
  | l :: rest => print l ;;; print_all rest
  end.

(** [help] (lines 102-131): one [print] per line of the table. *)
Definition help : M value :=
  print_all help_lines ;;;
  ret VNone.

(** The hosts of the four tests, in the order of lines 143, 151, 159, 167. *)
Definition targets : list string :=
  ["www.google.com"; "twitter.com"; "www.python.org"; "github.com"].

(** The command line of one test: two echo requests of 32 bytes. *)
Definition ping_argv (host : string) : list string :=
  ["ping"; "-n"; "2"; "-l"; "32"; host].

Definition failed_line (n : Z) (host : string) : string :=
  "-- Test " ++ str_int n ++ " failed." ++ tab ++ "(" ++ host ++ ")".

Definition passed_line (n : Z) (host : string) : string :=
  "-- Test " ++ str_int n ++ " passed." ++ tab ++ "(" ++ host ++ ")".

(** One of the four [try / except CalledProcessError / else] blocks of
    [test_connection]; it hands back the updated [success_count]. *)
Definition probe (n : Z) (host : string) (success_count : Z) : M Z :=
  try_except_else
    (check_output (ping_argv host))
    CalledProcessError
    (print (failed_line n host) ;;;
     ret success_count)
    (fun _ =>
       let success_count := success_count + 1 in
       print (passed_line n host) ;;;
       ret success_count).

(** ["%s/%s tests passed (%s%%)" % (success_count, test_count, success_rate)]. *)
Definition summary_line (success_count test_count success_rate : Z) : string :=
  str_int success_count ++ "/" ++ str_int test_count
    ++ " tests passed (" ++ str_int success_rate ++ "%)".

(** [int(100*(success_count/test_count))] (line 174). *)
Definition success_rate_of (success_count test_count : Z) : M Z :=
  q <- truediv success_count test_count ;;
  p <- mul_int_float 100 q ;;
  int_of_float p.

(** [test_connection] (lines 133-177). *)
Definition test_connection : M value :=
  ensure_session_active ;;;
  let success_count := 0 in
  let test_count := 4 in
  print "Running 4 tests:" ;;;
  success_count <- probe 1 "www.google.com" success_count ;;
  success_count <- probe 2 "twitter.com" success_count ;;
  success_count <- probe 3 "www.python.org" success_count ;;
  success_count <- probe 4 "github.com" success_count ;;
  success_rate <- success_rate_of success_count test_count ;;
  print (summary_line success_count test_count success_rate) ;;;
  if negb (0 <? success_rate) then ret (VBool false)
  else ret VNone.

(** [test] (lines 179-182). *)
Definition test : M value := test_connection.

(** The calls a client can make on the class. *)
Inductive op : Type :=
| OpConstruct
| OpStart
| OpQuit
| OpHelp
| OpTestConnection
| OpTest.

Definition call (o : op) : M value :=
  match o with
  | OpConstruct => construct
  | OpStart => start
  | OpQuit => quit
  | OpHelp => help
  | OpTestConnection => test_connection
  | OpTest => test
  end.

(** A gated method is one whose body begins with [ensure_session_active()]. *)
Definition gated (o : op) : bool :=
  match o with
  | OpTestConnection | OpTest => true
  | _ => false
  end.

(** A run of calls, each in the environment it meets; the state left by one
    call is the state the next one starts in. *)
Fixpoint run (calls : list (op * env)) (s : state) : state :=
  match calls with
  | [] => s
  | (o, w) :: rest => run rest (state_of (call o w s))
  end.

End NetBuddy.

Import NetBuddy.

(** ** Environments used in examples *)

Module Worlds.

Definition usage : bytes := [Byte.x55; Byte.x73; Byte.x61; Byte.x67; Byte.x65].

(** [repr] of a list of plain strings. *)
Definition repr_argv (argv : list string) : string :=
  "[" ++ String.concat ", " (map (fun a => "'" ++ a ++ "'") argv) ++ "]".

(** The text of a [CalledProcessError] for a positive exit status, the only
    kind these hosts produce. *)
Definition exit_text (argv : list string) (rc : Z) : string :=
  "Command '" ++ repr_argv argv ++ "' returned non-zero exit status "
    ++ str_int rc ++ ".".

(** A Windows host where [ping /?] prints its usage and the listed hosts
    answer. *)
Definition windows (reachable : list string) : env :=
  mkEnv "nt"
        (fun argv =>
           match argv with
           | ["ping"; "/?"] => Exited 0 usage
           | ["ping"; "-n"; "2"; "-l"; "32"; host] =>
               if existsb (String.eqb host) reachable
               then Exited 0 usage else Exited 1 usage
           | _ => NotLaunched FileNotFound "No such file or directory"
           end)
        exit_text.

(** A POSIX host. *)
Definition posix : env := mkEnv "posix" (fun _ => Exited 0 usage) exit_text.

(** A Windows host whose [ping] cannot be launched. *)
Definition windows_without_ping : env :=
  mkEnv "nt"
        (fun _ => NotLaunched FileNotFound
                              "[WinError 2] The system cannot find the file specified")
        exit_text.

(** A Windows host whose [ping /?] runs and prints nothing. *)
Definition windows_silent_ping : env :=
  mkEnv "nt" (fun _ => Exited 0 []) exit_text.

(** A Windows host where every host answers but [ping] cannot be launched
    for [host]. *)
Definition windows_ping_lost_at (host : string) : env :=
  mkEnv "nt"
        (fun argv =>
           match argv with
           | ["ping"; "-n"; "2"; "-l"; "32"; h] =>
               if String.eqb h host
               then NotLaunched FileNotFound
                                "[WinError 2] The system cannot find the file specified"
               else Exited 0 usage
           | _ => Exited 0 usage
           end)
        exit_text.

(** A Windows host where every host answers but access to [ping] is denied
    for [host]. *)
Definition windows_ping_denied_at (host : string) : env :=
  mkEnv "nt"
        (fun argv =>
           match argv with
           | ["ping"; "-n"; "2"; "-l"; "32"; h] =>
               if String.eqb h host
               then NotLaunched PermissionDenied "[WinError 5] Access is denied"
               else Exited 0 usage
           | _ => Exited 0 usage
           end)
        exit_text.

(** A Windows host whose every command runs and exits with status [rc]. *)
Definition windows_exit_status (rc : Z) : env :=
  mkEnv "nt" (fun _ => Exited rc usage) exit_text.

End Worlds.

Import Worlds.

(** ** Vocabulary of the statements *)

Module Spec.

(** The operating system could launch the [ping] of [host]. *)
Definition launched (w : env) (host : string) : bool :=
  match run_process w (ping_argv host) with
  | Exited _ _ => true
  | NotLaunched _ _ => false
  end.

(** The [ping] of [host] ran and exited with status 0. *)
Definition answered (w : env) (host : string) : bool :=
  match run_process w (ping_argv host) with
  | Exited rc _ => rc =? 0
  | NotLaunched _ _ => false
  end.

(** Number of targets whose probe succeeds. *)
Definition successes (w : env) : Z :=
  Z.of_nat (List.length (filter (answered w) targets)).

(** The line [test_connection] prints for the [n]-th target. *)
Definition verdict_line (w : env) (n : Z) (host : string) : string :=
  if answered w host then passed_line n host else failed_line n host.

(** The events of the probes of [hosts], numbered from [n]. *)
Fixpoint probe_events (w : env) (n : Z) (hosts : list string) : list event :=
  match hosts with
  | [] => []
  | h :: rest =>
      Exec (ping_argv h) :: Print (verdict_line w n h)
           :: probe_events w (n + 1) rest
  end.

(** What a call without an explicit [return], or with [return False], hands
    back when the success count is [x]. *)
Definition verdict (x : Z) : value :=
  if x =? 0 then VBool false else VNone.

(** The exception classes the module defines below its base class. *)
Definition netbuddy_errors : list pyclass :=
  [NotStartedException; NotWindowsException;
   MissingCommandException; QuestionableException].

(** [ping /?] can be run and prints something. *)
Definition ping_usable (w : env) : bool :=
  match run_process w ["ping"; "/?"] with
  | Exited rc out => (rc =? 0) && truthy_bytes out
  | NotLaunched _ _ => false
  end.

Definition not_started : exn :=
  mkExn NotStartedException "No session active, use NetBuddy.start() first".

Definition not_windows : exn :=
  mkExn NotWindowsException "This program is only supported on Windows.".

Definition missing_command : exn :=
  mkExn MissingCommandException
        "Missing command 'ping'. This is unexpected for Windows devices.".

Definition already_active_notice : string :=
  "A session is already active. To quit, use NetBuddy.quit().".

Definition starting_lines : list event :=
  [Print "Session starting..."; Print "Checking platform..."].

Definition checking_lines : list event :=
  (starting_lines
     ++ [Print "Looking for required commands..."; Exec ["ping"; "/?"]])%list.

(** The five ways [start] can go from an inactive session. *)
Inductive start_case (w : env) : res value * state * list event -> Prop :=
| start_not_windows :
    os_name w <> "nt" ->
    start_case w (Raise not_windows, mkState false, starting_lines)
| start_not_launched err reason :
    os_name w = "nt" ->
    run_process w ["ping"; "/?"] = NotLaunched err reason ->
    start_case w (Raise (mkExn (launch_error_class err) reason), mkState false,
                  checking_lines)
| start_nonzero rc out msg :
    os_name w = "nt" ->
    run_process w ["ping"; "/?"] = Exited rc out ->
    rc <> 0 ->
    start_case w (Raise (mkExn CalledProcessError msg), mkState false,
                  checking_lines)
| start_no_output :
    os_name w = "nt" ->
    run_process w ["ping"; "/?"] = Exited 0 [] ->
    start_case w (Raise missing_command, mkState false, checking_lines)
| start_ok b out :
    os_name w = "nt" ->
    run_process w ["ping"; "/?"] = Exited 0 (b :: out) ->
    start_case w
      (Ret VNone, mkState true,
       (checking_lines
          ++ [Print "Session started. Run NetBuddy.help() for options."])%list).

(** A call that changes nothing but what it prints or runs. *)
Definition keeps_state {A} (m : M A) : Prop :=
  forall w s, state_of (m w s) = s.

(** The constructor differs from [start] in one thing: what a normal return
    hands back. *)
Definition as_constructed (r : res value) : res value :=
  match r with
  | Ret _ => Ret VInstance
  | Raise e => Raise e
  end.

(** The targets whose [ping] the test gets to run: all of them up to and
    including the first one that cannot be launched. *)
Fixpoint attempted (w : env) (hosts : list string) : list string :=
  match hosts with
  | [] => []
  | h :: rest => h :: (if launched w h then attempted w rest else [])
  end.

(** The two ways [test_connection] can go in an active session: every [ping]
    is launched and the call returns, or the first one that is not launched
    ends it. *)
Inductive test_case (w : env) : res value * state * list event -> Prop :=
| test_all_launched :
    (forall h, In h targets -> launched w h = true) ->
    test_case w
      (Ret (verdict (successes w)), mkState true,
       (Print "Running 4 tests:" :: probe_events w 1 targets
          ++ [Print (summary_line (successes w) 4 (100 * successes w / 4))])%list)
| test_ping_lost before h after err reason :
    targets = (before ++ h :: after)%list ->
    (forall h', In h' before -> launched w h' = true) ->
    run_process w (ping_argv h) = NotLaunched err reason ->
    test_case w
      (Raise (mkExn (launch_error_class err) reason), mkState true,
       (Print "Running 4 tests:" :: probe_events w 1 before
          ++ [Exec (ping_argv h)])%list).

(** The exception classes of the module itself that each call raises: the
    classes named in the [raise] statements its body reaches. *)
Definition netbuddy_raises (o : op) : list pyclass :=
  match o with
  | OpStart | OpConstruct => [NotWindowsException; MissingCommandException]
  | OpTestConnection | OpTest => [NotStartedException]
  | OpQuit | OpHelp => []
  end.

(** Every environment of a run of calls satisfies [p]. *)
Definition all_envs (p : env -> Prop) (calls : list (op * env)) : Prop :=
  forall o w, In (o, w) calls -> p w.

End Spec.

Import Spec.

(** ** Basic facts about the runtime model *)

Section Runtime.

Lemma pyclass_eqb_eq (c d : pyclass) : pyclass_eqb c d = true <-> c = d.
Proof.
  split.
  - destruct c, d; simpl; intros H; try reflexivity; discriminate H.
  - intros ->. destruct d; reflexivity.
Qed.

Lemma issubclass_refl (c : pyclass) : issubclass c c = true.
Proof. destruct c; reflexivity. Qed.

(** Every class of the model reaches [BaseException], so the fuel of
    [mro] is enough. *)
Lemma issubclass_BaseException (c : pyclass) : issubclass c BaseException = true.
Proof. destruct c; reflexivity. Qed.

Lemma issubclass_trans (a b c : pyclass) :
  issubclass a b = true -> issubclass b c = true -> issubclass a c = true.
Proof. destruct a, b; try discriminate; destruct c; trivial. Qed.

Lemma bind_ret_l {A B} (a : A) (k : A -> M B) w s :
  bind (ret a) k w s = k a w s.
Proof. unfold bind, ret. destruct (k a w s) as [[r s'] t]. reflexivity. Qed.

Lemma bind_raise {A B} (m : M A) (k : A -> M B) w s e s' t :
  m w s = (Raise e, s', t) -> bind m k w s = (Raise e, s', t).
Proof. intros H. unfold bind. rewrite H. reflexivity. Qed.

Lemma bind_returns {A B} (m : M A) (k : A -> M B) w s a s' t :
  m w s = (Ret a, s', t) ->
  bind m k w s =
    (result_of (k a w s'), state_of (k a w s'), (t ++ trace_of (k a w s'))%list).
Proof.
  intros H. unfold bind. rewrite H.
  destruct (k a w s') as [[r s2] t2]. reflexivity.
Qed.

End Runtime.

(** ** Calls that leave the flag alone *)

Section Frame.

Lemma keeps_ret {A} (a : A) : keeps_state (ret a).
Proof. intros w s. reflexivity. Qed.

Lemma keeps_raise {A} (e : exn) : keeps_state (@raise A e).
Proof. intros w s. reflexivity. Qed.

Lemma keeps_print (l : string) : keeps_state (print l).
Proof. intros w s. reflexivity. Qed.

Lemma keeps_get_active : keeps_state get_active.
Proof. intros w s. reflexivity. Qed.

Lemma keeps_check_output (argv : list string) : keeps_state (check_output argv).
Proof.
  intros w s. unfold check_output.
  destruct (run_process w argv) as [rc out | reason]; [ destruct (rc =? 0) | ];
    reflexivity.
Qed.

Lemma keeps_bind {A B} (m : M A) (k : A -> M B) :
  keeps_state m -> (forall a, keeps_state (k a)) -> keeps_state (bind m k).
Proof.
  intros Hm Hk w s. specialize (Hm w s). unfold bind, state_of in *.
  destruct (m w s) as [[[a | e] s1] t1]; simpl in Hm; subst s1.
  - specialize (Hk a w s). unfold state_of in Hk.
    destruct (k a w s) as [[r s2] t2]. exact Hk.
  - reflexivity.
Qed.

Lemma keeps_try_except_else {A B} (body : M A) c (handler : M B) orelse :
  keeps_state body -> keeps_state handler -> (forall a, keeps_state (orelse a)) ->
  keeps_state (try_except_else body c handler orelse).
Proof.
  intros Hb Hh Ho w s. specialize (Hb w s). unfold try_except_else, state_of in *.
  destruct (body w s) as [[[a | e] s1] t1]; simpl in Hb; subst s1.
  - specialize (Ho a w s). unfold state_of in Ho.
    destruct (orelse a w s) as [[r s2] t2]. exact Ho.
  - destruct (catches c e); [ | reflexivity ].
    specialize (Hh w s). unfold state_of in Hh.
    destruct (handler w s) as [[r s2] t2]. exact Hh.
Qed.

Lemma keeps_float_of_int z : keeps_state (float_of_int z).
Proof.
  unfold float_of_int.
  destruct (Prim2SF _); auto using @keeps_ret, @keeps_raise.
Qed.

Lemma keeps_int_of_float f : keeps_state (int_of_float f).
Proof.
  unfold int_of_float.
  destruct (Prim2SF f); auto using @keeps_ret, @keeps_raise.
Qed.

Lemma keeps_truediv a b : keeps_state (truediv a b).
Proof.
  unfold truediv. destruct (b =? 0); [ apply keeps_raise | ].
  cbv zeta. destruct (Prim2SF _); auto using @keeps_ret, @keeps_raise.
Qed.

Lemma keeps_success_rate_of x n : keeps_state (success_rate_of x n).
Proof.
  unfold success_rate_of, mul_int_float.
  apply keeps_bind.
  - apply keeps_truediv.
  - intros q. apply keeps_bind.
    + apply keeps_bind; [ apply keeps_float_of_int | intros ?; apply keeps_ret ].
    + intros p. apply keeps_int_of_float.
Qed.

Lemma keeps_probe n host c : keeps_state (probe n host c).
Proof.
  unfold probe. apply keeps_try_except_else.
  - apply keeps_check_output.
  - apply keeps_bind; [ apply keeps_print | intros ?; apply keeps_ret ].
  - intros _. apply keeps_bind; [ apply keeps_print | intros ?; apply keeps_ret ].
Qed.

Lemma keeps_ensure_session_active : keeps_state ensure_session_active.
Proof.
  unfold ensure_session_active. apply keeps_bind.
  - apply keeps_get_active.
  - intros [|]; simpl; [ apply keeps_ret | apply keeps_raise ].
Qed.

Lemma keeps_test_connection : keeps_state test_connection.
Proof.
  unfold test_connection.
  apply keeps_bind; [ apply keeps_ensure_session_active | intros _ ].
  apply keeps_bind; [ apply keeps_print | intros _ ].
  do 4 (apply keeps_bind; [ apply keeps_probe | intros ? ]).
  apply keeps_bind; [ apply keeps_success_rate_of | intros rate ].
  apply keeps_bind; [ apply keeps_print | intros _ ].
  destruct (negb (0 <? rate)); apply keeps_ret.
Qed.

Lemma keeps_print_all lines : keeps_state (print_all lines).
Proof.
  induction lines as [| l rest IH]; simpl.
  - apply keeps_ret.
  - apply keeps_bind; [ apply keeps_print | intros _; exact IH ].
Qed.

Lemma keeps_help : keeps_state help.
Proof.
  unfold help.
  apply keeps_bind; [ apply keeps_print_all | intros _; apply keeps_ret ].
Qed.

End Frame.

(** ** [start], [quit] and the constructor *)

Section Lifecycle.

Lemma start_inactive_cases w : start_case w (start w (mkState false)).
Proof.
  destruct w as [name rp txt].
  unfold start, bind, get_active, get_name, print, check_output, set_active.
  simpl.
  destruct (String.eqb_spec name "nt") as [-> | Hne]; simpl.
  - destruct (rp ["ping"; "/?"]) as [rc out | err reason] eqn:Hrun.
    + destruct (Z.eqb_spec rc 0) as [-> | Hrc].
      * destruct out as [| b out]; simpl.
        -- now apply start_no_output.
        -- now apply (start_ok _ b out).
      * now apply (start_nonzero _ rc out).
    + now apply start_not_launched.
  - now apply start_not_windows.
Qed.

Lemma start_active w : start w (mkState true) =
                       (Ret VNone, mkState true, [Print already_active_notice]).
Proof. reflexivity. Qed.

(** A failed [start] leaves the session inactive. *)
Lemma start_raise_keeps_inactive w e s' t :
  start w (mkState false) = (Raise e, s', t) -> s' = mkState false.
Proof.
  intros H. pose proof (start_inactive_cases w) as Hc. rewrite H in Hc.
  inversion Hc; reflexivity.
Qed.

(** [start] returns normally from an inactive session exactly on a Windows
    host whose [ping /?] runs and prints something, and then the session is
    active. *)
Lemma start_returns_iff w :
  (exists v, result_of (start w (mkState false)) = Ret v)
  <-> os_name w = "nt" /\ ping_usable w = true.
Proof.
  pose proof (start_inactive_cases w) as Hc. unfold ping_usable.
  inversion Hc as [Hn Heq | err r Hn Hr Heq | rc out msg Hn Hr Hrc Heq
                   | Hn Hr Heq | b out Hn Hr Heq];
    unfold result_of; simpl; split;
    try (intros [v Hv]; discriminate Hv).
  - intros [Hnt _]. contradiction.
  - rewrite Hr. intros [_ Hf]. discriminate Hf.
  - rewrite Hr. intros [_ Hf]. apply andb_prop in Hf as [Hz _].
    apply Z.eqb_eq in Hz. contradiction.
  - rewrite Hr. intros [_ Hf]. discriminate Hf.
  - intros _. rewrite Hr. split; [ assumption | reflexivity ].
  - intros _. exists VNone. reflexivity.
Qed.

Lemma start_activates_iff w :
  active (state_of (start w (mkState false))) = true
  <-> result_of (start w (mkState false)) = Ret VNone.
Proof.
  pose proof (start_inactive_cases w) as Hc.
  inversion Hc; unfold state_of, result_of; simpl; split;
    intros Hgoal; try discriminate Hgoal; reflexivity.
Qed.

Lemma construct_unfold w s :
  construct w s =
    (as_constructed (result_of (start w s)), state_of (start w s),
     trace_of (start w s)).
Proof.
  unfold construct, __init__, bind, ret, result_of, state_of, trace_of.
  destruct (start w s) as [[[v | e] s'] t]; simpl.
  - now rewrite !app_nil_r.
  - reflexivity.
Qed.

Lemma quit_unfold w s :
  quit w s = (Ret VNone, mkState false, [Print "Session ended."]).
Proof. reflexivity. Qed.

End Lifecycle.

(** ** The session gate *)

(** C1.  A gated call ([test_connection], and [test], which is the same call)
    made while [active] is false raises [NotStartedException], prints nothing,
    runs no command, and leaves the session state as it was. *)
Theorem gated_call_when_inactive (o : op) (w : env) (s : state) :
  gated o = true ->
  active s = false ->
  call o w s = (Raise not_started, s, []).
Proof.
  intros Hg Ha. destruct s as [a]. simpl in Ha. subst a.
  destruct o; simpl in Hg; try discriminate Hg; reflexivity.
Qed.

Lemma gated_call_when_inactive_witness :
  call OpTest posix initial = (Raise not_started, initial, []).
Proof.
  apply (gated_call_when_inactive OpTest posix initial); reflexivity.
Defined.

(** C6.  [start] on an active session prints the notice and returns: that one
    line is its whole trace (no platform check line, no command), and the
    session stays active. *)
Theorem start_when_active_is_noop (w : env) (s : state) :
  active s = true ->
  start w s = (Ret VNone, s, [Print already_active_notice])
  /\ execs (trace_of (start w s)) = []
  /\ active (state_of (start w s)) = true.
Proof.
  intros Ha. destruct s as [a]. simpl in Ha. subst a.
  rewrite start_active. repeat split.
Qed.

Lemma start_when_active_is_noop_witness :
  start windows_without_ping (mkState true)
  = (Ret VNone, mkState true, [Print already_active_notice])
  /\ execs (trace_of (start windows_without_ping (mkState true))) = []
  /\ active (state_of (start windows_without_ping (mkState true))) = true.
Proof.
  apply (start_when_active_is_noop windows_without_ping (mkState true)).
  reflexivity.
Defined.

(** C5.  [start] on an inactive session of a host whose [os.name] is not
    ['nt'] raises [NotWindowsException] before any command is run, the session
    stays inactive, and a handler for [MissingCommandException] does not catch
    that exception, nor the other way round: the two are different classes. *)
Theorem start_on_other_platform (w : env) (s : state) :
  active s = false ->
  os_name w <> "nt" ->
  start w s = (Raise not_windows, s, starting_lines)
  /\ active (state_of (start w s)) = false
  /\ execs (trace_of (start w s)) = []
  /\ exn_class not_windows <> exn_class missing_command
  /\ catches MissingCommandException not_windows = false
  /\ catches NotWindowsException missing_command = false.
Proof.
  intros Ha Hn. destruct s as [a]. simpl in Ha. subst a.
  pose proof (start_inactive_cases w) as Hc.
  inversion Hc as [Hw Heq | | | | ]; try contradiction.
  repeat split; try reflexivity.
  discriminate.
Qed.

Lemma start_on_other_platform_witness :
  start posix initial = (Raise not_windows, initial, starting_lines)
  /\ active (state_of (start posix initial)) = false
  /\ execs (trace_of (start posix initial)) = []
  /\ exn_class not_windows <> exn_class missing_command
  /\ catches MissingCommandException not_windows = false
  /\ catches NotWindowsException missing_command = false.
Proof.
  apply (start_on_other_platform posix initial).
  - reflexivity.
  - simpl. discriminate.
Defined.

(** C7.  [quit] leaves [active] false whatever the state it is called in; and
    when [start] has just returned normally from an inactive session (which
    made it active), a [quit] right after it makes the session inactive
    again. *)
Theorem quit_deactivates (w w' : env) (s : state) :
  active (state_of (quit w s)) = false
  /\ (active s = false ->
      result_of (start w s) = Ret VNone ->
      active (state_of (start w s)) = true
      /\ active (state_of (quit w' (state_of (start w s)))) = false).
Proof.
  split; [ reflexivity | ].
  intros Ha Hr. destruct s as [a]. simpl in Ha. subst a.
  split; [ now apply start_activates_iff | reflexivity ].
Qed.

Lemma quit_deactivates_witness :
  active (state_of (quit (windows []) (mkState true))) = false
  /\ active (state_of (start (windows []) initial)) = true
  /\ active (state_of (quit posix (state_of (start (windows []) initial)))) = false.
Proof.
  destruct (quit_deactivates (windows []) posix initial) as [_ Hseq].
  destruct (Hseq eq_refl eq_refl) as [Hon Hoff].
  split; [ | split; [ exact Hon | exact Hoff ] ].
  exact (proj1 (quit_deactivates (windows []) posix (mkState true))).
Defined.

(** C10.  Evaluating [NetBuddy()] does what [NetBuddy.start()] does: the same
    lines and commands in the same order, the same final value of [active],
    and the same exception whenever [start] raises one; when [start] returns,
    the constructor returns too (with the new object). *)
Theorem construct_behaves_as_start (w : env) (s : state) :
  trace_of (construct w s) = trace_of (start w s)
  /\ state_of (construct w s) = state_of (start w s)
  /\ result_of (construct w s) = as_constructed (result_of (start w s))
  /\ (forall e, result_of (construct w s) = Raise e
                <-> result_of (start w s) = Raise e).
Proof.
  rewrite construct_unfold. unfold trace_of, state_of, result_of. simpl.
  repeat split; destruct (start w s) as [[[v | e0] s'] t]; simpl;
    intros H; try discriminate H; exact H.
Qed.

(** ** The exception hierarchy *)

(** C9.  [NetBuddyException] is declared with base [BaseException], not
    [Exception].  Hence for each of the four exception classes below it, an
    [except Exception] handler does not catch an instance, and among all
    classes a handler can name, those that catch it are exactly the class
    itself, [NetBuddyException] and [BaseException]. *)
Theorem netbuddy_errors_bypass_Exception (c : pyclass) (msg : string) :
  In c netbuddy_errors ->
  base NetBuddyException = Some BaseException
  /\ issubclass NetBuddyException Exception = false
  /\ catches Exception (mkExn c msg) = false
  /\ (forall h, catches h (mkExn c msg) = true
                <-> h = c \/ h = NetBuddyException \/ h = BaseException).
Proof.
  intros Hin. unfold catches. simpl.
  repeat split; try reflexivity.
  - destruct Hin as [<- | [<- | [<- | [<- | []]]]]; reflexivity.
  - destruct Hin as [<- | [<- | [<- | [<- | []]]]];
      destruct h; intros H; try discriminate H; auto.
  - intros [-> | [-> | ->]].
    + apply issubclass_refl.
    + destruct Hin as [<- | [<- | [<- | [<- | []]]]]; reflexivity.
    + apply issubclass_BaseException.
Qed.

Lemma netbuddy_errors_bypass_Exception_witness :
  catches Exception not_started = false
  /\ catches NetBuddyException not_started = true.
Proof.
  destruct (netbuddy_errors_bypass_Exception NotStartedException (exn_msg not_started))
    as (_ & _ & Hbypass & Hcaught).
  - simpl. auto.
  - split; [ exact Hbypass | ].
    apply Hcaught. right. left. reflexivity.
Defined.

(** ** The lifecycle as a two-state machine *)

Section Machine.

Lemma call_turns_on (o : op) (w : env) (s : state) :
  active s = false ->
  active (state_of (call o w s)) = true ->
  (o = OpStart \/ o = OpConstruct)
  /\ state_of (call o w s) = state_of (start w s)
  /\ result_of (start w s) = Ret VNone
  /\ os_name w = "nt"
  /\ ping_usable w = true.
Proof.
  intros Ha Hon. destruct s as [a]. simpl in Ha. subst a.
  assert (Hstart : active (state_of (start w (mkState false))) = true ->
                   result_of (start w (mkState false)) = Ret VNone
                   /\ os_name w = "nt" /\ ping_usable w = true).
  { intros H. apply start_activates_iff in H. split; [ exact H | ].
    apply start_returns_iff. exists VNone. exact H. }
  destruct o; unfold call in Hon.
  - rewrite construct_unfold in Hon. unfold state_of at 1 in Hon. simpl in Hon.
    split; [ now right | ].
    split; [ now rewrite construct_unfold | now apply Hstart ].
  - split; [ now left | ]. split; [ reflexivity | now apply Hstart ].
  - discriminate Hon.
  - rewrite keeps_help in Hon. discriminate Hon.
  - rewrite keeps_test_connection in Hon. discriminate Hon.
  - unfold test in Hon. rewrite keeps_test_connection in Hon. discriminate Hon.
Qed.

Lemma call_turns_off (o : op) (w : env) (s : state) :
  active s = true ->
  active (state_of (call o w s)) = false ->
  o = OpQuit.
Proof.
  intros Ha Hoff. destruct s as [a]. simpl in Ha. subst a.
  destruct o; unfold call in Hoff; trivial.
  - rewrite construct_unfold, start_active in Hoff. discriminate Hoff.
  - rewrite start_active in Hoff. discriminate Hoff.
  - rewrite keeps_help in Hoff. discriminate Hoff.
  - rewrite keeps_test_connection in Hoff. discriminate Hoff.
  - unfold test in Hoff. rewrite keeps_test_connection in Hoff. discriminate Hoff.
Qed.

Lemma call_data_keeps_state (o : op) (w : env) (s : state) :
  o = OpHelp \/ o = OpTestConnection \/ o = OpTest ->
  state_of (call o w s) = s.
Proof.
  intros [-> | [-> | ->]]; unfold call.
  - apply keeps_help.
  - apply keeps_test_connection.
  - apply keeps_test_connection.
Qed.

(** Without a [start] (direct or through the constructor), no run of calls
    leaves the initial state. *)
Lemma run_without_start (calls : list (op * env)) (s : state) :
  active s = false ->
  (forall o w, In (o, w) calls -> o <> OpStart /\ o <> OpConstruct) ->
  active (run calls s) = false.
Proof.
  revert s. induction calls as [| [o w] rest IH]; intros s Ha Hno; simpl.
  - exact Ha.
  - apply IH.
    + destruct (active (state_of (call o w s))) eqn:Hon; [ | reflexivity ].
      destruct (call_turns_on o w s Ha Hon) as [Ho _].
      destruct (Hno o w (or_introl eq_refl)) as [H1 H2].
      destruct Ho; contradiction.
    + intros o' w' Hin. apply (Hno o' w'). right. exact Hin.
Qed.

(** What [start] does to the flag, on every host and in every state. *)
Lemma start_flag_after (w : env) (s : state) :
  active (state_of (call OpStart w s))
  = (active s || (String.eqb (os_name w) "nt" && ping_usable w)).
Proof.
  unfold call. destruct s as [[|]]; [ reflexivity | ].
  cbn [active orb]. unfold ping_usable.
  pose proof (start_inactive_cases w) as Hc.
  inversion Hc as [Hn Heq | err r Hn Hr Heq | rc out msg Hn Hr Hrc Heq
                   | Hn Hr Heq | b out Hn Hr Heq];
    unfold state_of; cbn [fst snd active].
  - apply String.eqb_neq in Hn. rewrite Hn. reflexivity.
  - rewrite Hr, andb_false_r. reflexivity.
  - rewrite Hr. apply Z.eqb_neq in Hrc. rewrite Hrc, andb_false_r. reflexivity.
  - rewrite Hr, andb_false_r. reflexivity.
  - rewrite Hn, Hr. reflexivity.
Qed.

Lemma start_checks_pass (w : env) (s : state) :
  active s = false -> os_name w = "nt" -> ping_usable w = true ->
  result_of (call OpStart w s) = Ret VNone
  /\ state_of (call OpStart w s) = mkState true.
Proof.
  intros Ha Hnt Hping. destruct s as [a]. simpl in Ha. subst a. unfold call.
  assert (Hr : result_of (start w (mkState false)) = Ret VNone).
  { destruct (proj2 (start_returns_iff w) (conj Hnt Hping)) as [v Hv].
    pose proof (start_inactive_cases w) as Hc.
    inversion Hc as [Hn Heq | err r Hn Hr Heq | rc out msg Hn Hr Hrc Heq
                     | Hn Hr Heq | b out Hn Hr Heq];
      rewrite <- Heq in Hv; try discriminate Hv; reflexivity. }
  split; [ exact Hr | ].
  apply start_activates_iff in Hr.
  destruct (state_of (start w (mkState false))) as [a]. simpl in Hr.
  now subst a.
Qed.

End Machine.

(** C8.  The flag starts false.  [start] leaves it true exactly when it was
    true already or the platform and command checks pass, and then it returns
    normally; [quit] leaves it false from any state.  Those are the only
    transitions: a call that finds the flag false and leaves it true is
    [start] (called directly, or by the constructor, whose body is that
    call), it leaves the state [start] leaves, and that [start] returned
    normally, which takes a Windows host with a working [ping]; a call that
    finds it true and leaves it false is [quit].  [help], [test_connection]
    and [test] leave the state as they found it, whether they return or
    raise. *)
Theorem lifecycle_two_states (o : op) (w : env) (s : state) :
  active initial = false
  /\ active (state_of (call OpStart w s))
     = (active s || (String.eqb (os_name w) "nt" && ping_usable w))
  /\ (active s = false -> os_name w = "nt" -> ping_usable w = true ->
      result_of (call OpStart w s) = Ret VNone
      /\ state_of (call OpStart w s) = mkState true)
  /\ state_of (call OpQuit w s) = mkState false
  /\ (active s = false -> active (state_of (call o w s)) = true ->
      (o = OpStart \/ o = OpConstruct)
      /\ state_of (call o w s) = state_of (start w s)
      /\ result_of (start w s) = Ret VNone
      /\ os_name w = "nt" /\ ping_usable w = true)
  /\ (active s = true -> active (state_of (call o w s)) = false -> o = OpQuit)
  /\ (o = OpHelp \/ o = OpTestConnection \/ o = OpTest ->
      state_of (call o w s) = s).
Proof.
  split; [ reflexivity | ].
  split; [ apply start_flag_after | ].
  split; [ apply start_checks_pass | ].
  split; [ reflexivity | ].
  split; [ apply call_turns_on | ].
  split; [ apply call_turns_off | apply call_data_keeps_state ].
Qed.

Lemma lifecycle_two_states_witness :
  (result_of (call OpStart (windows []) initial) = Ret VNone
   /\ state_of (call OpStart (windows []) initial) = mkState true)
  /\ state_of (call OpQuit (windows []) (mkState true)) = mkState false
  /\ os_name (windows []) = "nt"
  /\ OpQuit = OpQuit
  /\ state_of (call OpTest (windows []) (mkState true)) = mkState true.
Proof.
  destruct (lifecycle_two_states OpStart (windows []) initial)
    as (_ & _ & Hpass & _ & Hon & _ & _).
  destruct (lifecycle_two_states OpQuit (windows []) (mkState true))
    as (_ & _ & _ & Hquit & _ & Hoff & _).
  destruct (lifecycle_two_states OpTest (windows []) (mkState true))
    as (_ & _ & _ & _ & _ & _ & Hkeep).
  destruct (Hon eq_refl eq_refl) as (_ & _ & _ & Hnt & _).
  split; [ exact (Hpass eq_refl eq_refl eq_refl) | ].
  split; [ exact Hquit | ].
  split; [ exact Hnt | ].
  split; [ exact (Hoff eq_refl eq_refl) | ].
  apply Hkeep. right. right. reflexivity.
Defined.

(** ** The connectivity test *)

Section Probes.

Lemma probe_launched n host c w s :
  launched w host = true ->
  probe n host c w s =
    (Ret (if answered w host then c + 1 else c), s,
     [Exec (ping_argv host); Print (verdict_line w n host)]).
Proof.
  unfold verdict_line, launched, answered, probe, try_except_else, check_output.
  destruct (run_process w (ping_argv host)) as [rc out | err reason];
    [ intros _ | intros H; discriminate H ].
  destruct (rc =? 0); reflexivity.
Qed.

Lemma probe_not_launched n host c w s err reason :
  run_process w (ping_argv host) = NotLaunched err reason ->
  probe n host c w s =
    (Raise (mkExn (launch_error_class err) reason), s, [Exec (ping_argv host)]).
Proof.
  intros H. unfold probe, try_except_else, check_output. rewrite H.
  destruct err; reflexivity.
Qed.

(** On the counts the test can reach, the float computation of line 174 is
    exact. *)
Lemma success_rate_exact x w s :
  0 <= x <= 4 ->
  success_rate_of x 4 w s = (Ret (100 * x / 4), s, []).
Proof.
  intros Hx.
  assert (Hc : x = 0 \/ x = 1 \/ x = 2 \/ x = 3 \/ x = 4) by lia.
  destruct Hc as [-> | [-> | [-> | [-> | ->]]]]; vm_compute; reflexivity.
Qed.

Lemma successes_bounds w : 0 <= successes w <= 4.
Proof.
  unfold successes. split; [ lia | ].
  pose proof (filter_length_le (answered w) targets) as H.
  change (List.length targets) with 4%nat in H. lia.
Qed.

Lemma test_connection_launched w :
  (forall h, In h targets -> launched w h = true) ->
  test_connection w (mkState true) =
    (Ret (verdict (successes w)), mkState true,
     (Print "Running 4 tests:" :: probe_events w 1 targets
        ++ [Print (summary_line (successes w) 4 (100 * successes w / 4))])%list).
Proof.
  intros Hl.
  pose proof (successes_bounds w) as Hb.
  unfold test_connection, bind.
  change (ensure_session_active w (mkState true)) with (Ret tt, mkState true, @nil event).
  cbv beta iota.
  change (print "Running 4 tests:" w (mkState true))
    with (Ret tt, mkState true, [Print "Running 4 tests:"]).
  cbv beta iota.
  rewrite (probe_launched 1 "www.google.com") by (apply Hl; simpl; tauto).
  rewrite (probe_launched 2 "twitter.com") by (apply Hl; simpl; tauto).
  rewrite (probe_launched 3 "www.python.org") by (apply Hl; simpl; tauto).
  rewrite (probe_launched 4 "github.com") by (apply Hl; simpl; tauto).
  assert (Hcount :
            (if answered w "github.com"
             then (if answered w "www.python.org"
                   then (if answered w "twitter.com"
                         then (if answered w "www.google.com" then 0 + 1 else 0) + 1
                         else (if answered w "www.google.com" then 0 + 1 else 0)) + 1
                   else (if answered w "twitter.com"
                         then (if answered w "www.google.com" then 0 + 1 else 0) + 1
                         else (if answered w "www.google.com" then 0 + 1 else 0))) + 1
             else (if answered w "www.python.org"
                   then (if answered w "twitter.com"
                         then (if answered w "www.google.com" then 0 + 1 else 0) + 1
                         else (if answered w "www.google.com" then 0 + 1 else 0)) + 1
                   else (if answered w "twitter.com"
                         then (if answered w "www.google.com" then 0 + 1 else 0) + 1
                         else (if answered w "www.google.com" then 0 + 1 else 0))))
            = successes w).
  { unfold successes, targets. simpl filter.
    destruct (answered w "www.google.com"), (answered w "twitter.com"),
      (answered w "www.python.org"), (answered w "github.com"); reflexivity. }
  rewrite Hcount.
  rewrite (success_rate_exact (successes w)) by exact Hb.
  unfold print, ret, verdict.
  assert (Hv : negb (0 <? 100 * successes w / 4) = (successes w =? 0)).
  { assert (Hc : successes w = 0 \/ successes w = 1 \/ successes w = 2
                 \/ successes w = 3 \/ successes w = 4) by lia.
    destruct Hc as [-> | [-> | [-> | [-> | ->]]]]; reflexivity. }
  rewrite Hv.
  destruct (successes w =? 0); reflexivity.
Qed.

End Probes.

Section TestConnection.

(** The two runs the specification gives as examples. *)
Example test_connection_two_of_four :
  test_connection (windows ["www.google.com"; "www.python.org"]) (mkState true)
  = (Ret VNone, mkState true,
     [Print "Running 4 tests:";
      Exec (ping_argv "www.google.com"); Print (passed_line 1 "www.google.com");
      Exec (ping_argv "twitter.com"); Print (failed_line 2 "twitter.com");
      Exec (ping_argv "www.python.org"); Print (passed_line 3 "www.python.org");
      Exec (ping_argv "github.com"); Print (failed_line 4 "github.com");
      Print "2/4 tests passed (50%)"]).
Proof. vm_compute. reflexivity. Qed.

Example test_connection_none_of_four :
  test_connection (windows []) (mkState true)
  = (Ret (VBool false), mkState true,
     [Print "Running 4 tests:";
      Exec (ping_argv "www.google.com"); Print (failed_line 1 "www.google.com");
      Exec (ping_argv "twitter.com"); Print (failed_line 2 "twitter.com");
      Exec (ping_argv "www.python.org"); Print (failed_line 3 "www.python.org");
      Exec (ping_argv "github.com"); Print (failed_line 4 "github.com");
      Print "0/4 tests passed (0%)"]).
Proof. vm_compute. reflexivity. Qed.

Lemma prints_app t u : prints (t ++ u) = (prints t ++ prints u)%list.
Proof.
  induction t as [| [l | argv] t IH]; simpl; [ reflexivity | | exact IH ].
  now rewrite IH.
Qed.

Lemma execs_app t u : execs (t ++ u) = (execs t ++ execs u)%list.
Proof.
  induction t as [| [l | argv] t IH]; simpl; [ reflexivity | exact IH | ].
  now rewrite IH.
Qed.

Lemma execs_probe_events w n hosts :
  execs (probe_events w n hosts) = map ping_argv hosts.
Proof.
  revert n. induction hosts as [| h rest IH]; intros n; simpl.
  - reflexivity.
  - now rewrite IH.
Qed.

Lemma last_snoc {A} (l : list A) (x d : A) : last (l ++ [x]) d = x.
Proof.
  induction l as [| a l IH]; simpl; [ reflexivity | ].
  rewrite IH. destruct (l ++ [x])%list eqn:E; [ | reflexivity ].
  destruct l; discriminate E.
Qed.

End TestConnection.

(** C2, as the code has it.  In an active session where each of the four
    [ping] commands can be launched, with [X] the number of probes that exit
    with status 0: [X] is between 0 and 4, the last line printed is
    ["X/4 tests passed (Y%)"] with [Y = 100*X/4] (the float computation is
    exact there), the call returns [False] exactly when [Y] is 0, which is
    exactly when [X] is 0, and it returns [None] when [X > 0]. *)
Theorem test_connection_summary_and_verdict (w : env) (s : state) :
  active s = true ->
  (forall h, In h targets -> launched w h = true) ->
  0 <= successes w <= 4
  /\ last (prints (trace_of (test_connection w s))) ""
     = summary_line (successes w) 4 (100 * successes w / 4)
  /\ (result_of (test_connection w s) = Ret (VBool false)
      <-> 100 * successes w / 4 = 0)
  /\ (100 * successes w / 4 = 0 <-> successes w = 0)
  /\ (0 < successes w ->
      result_of (test_connection w s) = Ret VNone
      /\ truthy VNone = false).
Proof.
  intros Ha Hl. destruct s as [a]. simpl in Ha. subst a.
  pose proof (successes_bounds w) as Hb.
  rewrite (test_connection_launched w Hl).
  unfold trace_of, result_of, verdict. cbn [fst snd].
  assert (Hrate : 100 * successes w / 4 = 0 <-> successes w = 0).
  { split; intros H; [ | rewrite H; reflexivity ].
    assert (Hq : 100 * successes w = 4 * (25 * successes w)) by lia.
    rewrite Hq, Z.mul_comm, Z.div_mul in H by lia. lia. }
  split; [ exact Hb | ].
  split.
  { change (Print "Running 4 tests:" :: probe_events w 1 targets
              ++ [Print (summary_line (successes w) 4 (100 * successes w / 4))])%list
      with (([Print "Running 4 tests:"] ++ probe_events w 1 targets)
              ++ [Print (summary_line (successes w) 4 (100 * successes w / 4))])%list.
    rewrite prints_app. simpl (prints [_]). apply last_snoc. }
  split; [ | split; [ exact Hrate | ] ].
  - rewrite Hrate. destruct (Z.eqb_spec (successes w) 0) as [Hz | Hz]; split;
      intros H; trivial; try contradiction; discriminate H.
  - intros Hpos. destruct (Z.eqb_spec (successes w) 0) as [Hz | Hz]; [ lia | ].
    split; reflexivity.
Qed.

Lemma test_connection_summary_and_verdict_witness :
  last (prints (trace_of (test_connection
                            (windows ["www.google.com"; "www.python.org"])
                            (mkState true)))) ""
  = "2/4 tests passed (50%)".
Proof.
  destruct (test_connection_summary_and_verdict
              (windows ["www.google.com"; "www.python.org"]) (mkState true))
    as (_ & Hlast & _).
  - reflexivity.
  - intros h Hin. simpl in Hin.
    destruct Hin as [<- | [<- | [<- | [<- | []]]]]; reflexivity.
  - exact Hlast.
Defined.

(** C2 as stated fails when a [ping] cannot be launched: here the first three
    probes succeed, the fourth raises [FileNotFoundError], which
    [except CalledProcessError] does not catch; no summary line is printed and
    the call returns nothing. *)
Lemma test_connection_no_summary_when_ping_lost :
  active (mkState true) = true
  /\ result_of (test_connection (windows_ping_lost_at "github.com") (mkState true))
     = Raise (mkExn FileNotFoundError
                    "[WinError 2] The system cannot find the file specified")
  /\ prints (trace_of (test_connection (windows_ping_lost_at "github.com")
                                       (mkState true)))
     = ["Running 4 tests:";
        passed_line 1 "www.google.com";
        passed_line 2 "twitter.com";
        passed_line 3 "www.python.org"].
Proof. vm_compute. repeat split. Qed.

(** C3, as the code has it.  In an active session where each of the four
    [ping] commands can be launched, the call runs exactly the four commands
    of the target list, in order, however many exit with a non-zero status;
    each such exit is caught and reported on its own line, the call returns
    rather than raises, and the count it prints in the summary is between 0
    and 4. *)
Theorem test_connection_runs_four_probes (w : env) (s : state) :
  active s = true ->
  (forall h, In h targets -> launched w h = true) ->
  execs (trace_of (test_connection w s)) = map ping_argv targets
  /\ List.length (execs (trace_of (test_connection w s))) = 4%nat
  /\ trace_of (test_connection w s)
     = (Print "Running 4 tests:" :: probe_events w 1 targets
          ++ [Print (summary_line (successes w) 4 (100 * successes w / 4))])%list
  /\ result_of (test_connection w s) = Ret (verdict (successes w))
  /\ 0 <= successes w <= 4.
Proof.
  intros Ha Hl. destruct s as [a]. simpl in Ha. subst a.
  rewrite (test_connection_launched w Hl).
  unfold trace_of, result_of. cbn [fst snd].
  assert (He : execs (Print "Running 4 tests:" :: probe_events w 1 targets
                        ++ [Print (summary_line (successes w) 4
                                                (100 * successes w / 4))])
               = map ping_argv targets).
  { change (execs (probe_events w 1 targets
                     ++ [Print (summary_line (successes w) 4
                                             (100 * successes w / 4))])
            = map ping_argv targets).
    rewrite execs_app, execs_probe_events. apply app_nil_r. }
  rewrite He.
  repeat split; try reflexivity; apply successes_bounds.
Qed.

Lemma test_connection_runs_four_probes_witness :
  execs (trace_of (test_connection (windows ["twitter.com"]) (mkState true)))
  = map ping_argv targets
  /\ result_of (test_connection (windows ["twitter.com"]) (mkState true))
     = Ret VNone.
Proof.
  destruct (test_connection_runs_four_probes (windows ["twitter.com"]) (mkState true))
    as (Hexecs & _ & _ & Hres & _).
  - reflexivity.
  - intros h Hin. simpl in Hin.
    destruct Hin as [<- | [<- | [<- | [<- | []]]]]; reflexivity.
  - split; [ exact Hexecs | exact Hres ].
Defined.

(** C3 as stated fails when a [ping] cannot be launched: the error of the
    first probe is not a [CalledProcessError], so it leaves the call, and the
    other three commands are never run. *)
Lemma test_connection_aborts_when_ping_lost :
  active (mkState true) = true
  /\ test_connection (windows_ping_lost_at "www.google.com") (mkState true)
     = (Raise (mkExn FileNotFoundError
                     "[WinError 2] The system cannot find the file specified"),
        mkState true,
        [Print "Running 4 tests:"; Exec (ping_argv "www.google.com")])
  /\ List.length (execs (trace_of (test_connection
                                     (windows_ping_lost_at "www.google.com")
                                     (mkState true)))) = 1%nat.
Proof. vm_compute. repeat split. Qed.

(** C4, where the code departs from it.  On a Windows host whose [ping]
    cannot be launched, [start] on an inactive session lets the error of
    [check_output] through: [FileNotFoundError] when the command is not
    found, [PermissionError] or another [OSError] otherwise.  It is not a
    [MissingCommandException], nor any [NetBuddyException].  The session stays
    inactive. *)
Theorem start_without_ping_raises_os_error
        (w : env) (s : state) (err : launch_error) (reason : string) :
  active s = false ->
  os_name w = "nt" ->
  run_process w ["ping"; "/?"] = NotLaunched err reason ->
  start w s = (Raise (mkExn (launch_error_class err) reason), s, checking_lines)
  /\ catches MissingCommandException (mkExn (launch_error_class err) reason) = false
  /\ catches NetBuddyException (mkExn (launch_error_class err) reason) = false
  /\ active (state_of (start w s)) = false.
Proof.
  intros Ha Hnt Hrun. destruct s as [a]. simpl in Ha. subst a.
  pose proof (start_inactive_cases w) as Hc.
  inversion Hc as [Hn Heq | err' r Hn Hr Heq | rc out msg Hn Hr Hrc Heq
                   | Hn Hr Heq | b out Hn Hr Heq];
    try contradiction; try congruence.
  rewrite Hrun in Hr. injection Hr as <- <-.
  repeat split; destruct err; reflexivity.
Qed.

Lemma start_without_ping_raises_os_error_witness :
  start windows_without_ping initial
  = (Raise (mkExn FileNotFoundError
                  "[WinError 2] The system cannot find the file specified"),
     initial, checking_lines)
  /\ catches MissingCommandException
             (mkExn FileNotFoundError
                    "[WinError 2] The system cannot find the file specified")
     = false.
Proof.
  destruct (start_without_ping_raises_os_error
              windows_without_ping initial FileNotFound
              "[WinError 2] The system cannot find the file specified")
    as (Hstart & Hmiss & _); try reflexivity.
  split; [ exact Hstart | exact Hmiss ].
Defined.

(** The part of C4 the code does implement: a [ping /?] that runs and prints
    nothing makes [start] raise [MissingCommandException], the session staying
    inactive. *)
Lemma start_with_silent_ping (w : env) (s : state) :
  active s = false ->
  os_name w = "nt" ->
  run_process w ["ping"; "/?"] = Exited 0 [] ->
  start w s = (Raise missing_command, s, checking_lines).
Proof.
  intros Ha Hnt Hrun. destruct s as [a]. simpl in Ha. subst a.
  pose proof (start_inactive_cases w) as Hc.
  inversion Hc as [Hn Heq | err r Hn Hr Heq | rc out msg Hn Hr Hrc Heq
                   | Hn Hr Heq | b out Hn Hr Heq];
    try contradiction; congruence.
Qed.

(** ** Further properties of the calls *)

Section MoreLemmas.

Lemma print_all_unfold lines w s :
  print_all lines w s = (Ret tt, s, map Print lines).
Proof.
  induction lines as [| l rest IH]; simpl.
  - reflexivity.
  - unfold bind. simpl. rewrite IH. reflexivity.
Qed.

Lemma help_unfold w s : help w s = (Ret VNone, s, map Print help_lines).
Proof.
  unfold help, bind. rewrite print_all_unfold. unfold ret.
  rewrite app_nil_r. reflexivity.
Qed.

Lemma execs_map_Print lines : execs (map Print lines) = [].
Proof. induction lines as [| l rest IH]; simpl; [ reflexivity | exact IH ]. Qed.

Lemma prints_map_Print lines : prints (map Print lines) = lines.
Proof.
  induction lines as [| l rest IH]; simpl; [ reflexivity | now rewrite IH ].
Qed.

Lemma test_connection_inactive w :
  test_connection w (mkState false) = (Raise not_started, mkState false, []).
Proof. reflexivity. Qed.

Lemma launched_or_not w h :
  launched w h = true
  \/ exists err reason, run_process w (ping_argv h) = NotLaunched err reason.
Proof.
  unfold launched. destruct (run_process w (ping_argv h)) as [rc out | err reason].
  - left. reflexivity.
  - right. exists err, reason. reflexivity.
Qed.

Lemma test_connection_active_cases w :
  test_case w (test_connection w (mkState true)).
Proof.
  destruct (launched_or_not w "www.google.com") as [L1 | (e1 & r1 & N1)].
  2:{ unfold test_connection, bind.
      change (ensure_session_active w (mkState true))
        with (Ret tt, mkState true, @nil event).
      cbv beta iota.
      change (print "Running 4 tests:" w (mkState true))
        with (Ret tt, mkState true, [Print "Running 4 tests:"]).
      cbv beta iota.
      rewrite (probe_not_launched 1 "www.google.com" 0 w (mkState true) e1 r1 N1).
      apply (test_ping_lost w [] "www.google.com"
               ["twitter.com"; "www.python.org"; "github.com"] e1 r1);
        [ reflexivity | intros h' [] | exact N1 ]. }
  destruct (launched_or_not w "twitter.com") as [L2 | (e2 & r2 & N2)].
  2:{ unfold test_connection, bind.
      change (ensure_session_active w (mkState true))
        with (Ret tt, mkState true, @nil event).
      cbv beta iota.
      change (print "Running 4 tests:" w (mkState true))
        with (Ret tt, mkState true, [Print "Running 4 tests:"]).
      cbv beta iota.
      rewrite (probe_launched 1 "www.google.com") by exact L1.
      rewrite (probe_not_launched 2 "twitter.com" _ w (mkState true) e2 r2 N2).
      apply (test_ping_lost w ["www.google.com"] "twitter.com"
               ["www.python.org"; "github.com"] e2 r2);
        [ reflexivity | | exact N2 ].
      intros h' [<- | []]. exact L1. }
  destruct (launched_or_not w "www.python.org") as [L3 | (e3 & r3 & N3)].
  2:{ unfold test_connection, bind.
      change (ensure_session_active w (mkState true))
        with (Ret tt, mkState true, @nil event).
      cbv beta iota.
      change (print "Running 4 tests:" w (mkState true))
        with (Ret tt, mkState true, [Print "Running 4 tests:"]).
      cbv beta iota.
      rewrite (probe_launched 1 "www.google.com") by exact L1.
      rewrite (probe_launched 2 "twitter.com") by exact L2.
      rewrite (probe_not_launched 3 "www.python.org" _ w (mkState true) e3 r3 N3).
      apply (test_ping_lost w ["www.google.com"; "twitter.com"] "www.python.org"
               ["github.com"] e3 r3);
        [ reflexivity | | exact N3 ].
      intros h' [<- | [<- | []]]; assumption. }
  destruct (launched_or_not w "github.com") as [L4 | (e4 & r4 & N4)].
  2:{ unfold test_connection, bind.
      change (ensure_session_active w (mkState true))
        with (Ret tt, mkState true, @nil event).
      cbv beta iota.
      change (print "Running 4 tests:" w (mkState true))
        with (Ret tt, mkState true, [Print "Running 4 tests:"]).
      cbv beta iota.
      rewrite (probe_launched 1 "www.google.com") by exact L1.
      rewrite (probe_launched 2 "twitter.com") by exact L2.
      rewrite (probe_launched 3 "www.python.org") by exact L3.
      rewrite (probe_not_launched 4 "github.com" _ w (mkState true) e4 r4 N4).
      apply (test_ping_lost w ["www.google.com"; "twitter.com"; "www.python.org"]
               "github.com" [] e4 r4);
        [ reflexivity | | exact N4 ].
      intros h' [<- | [<- | [<- | []]]]; assumption. }
  assert (Hl : forall h, In h targets -> launched w h = true).
  { intros h [<- | [<- | [<- | [<- | []]]]]; assumption. }
  rewrite (test_connection_launched w Hl).
  apply test_all_launched. exact Hl.
Qed.

Lemma attempted_all w hosts :
  (forall h, In h hosts -> launched w h = true) -> attempted w hosts = hosts.
Proof.
  induction hosts as [| h rest IH]; intros Hl; simpl.
  - reflexivity.
  - rewrite (Hl h (or_introl eq_refl)), IH; [ reflexivity | ].
    intros h' Hin. apply Hl. right. exact Hin.
Qed.

Lemma attempted_until w before h after err reason :
  (forall h', In h' before -> launched w h' = true) ->
  run_process w (ping_argv h) = NotLaunched err reason ->
  attempted w (before ++ h :: after) = (before ++ [h])%list.
Proof.
  intros Hl Hn. induction before as [| b before IH]; simpl.
  - unfold launched. rewrite Hn. reflexivity.
  - rewrite (Hl b (or_introl eq_refl)), IH; [ reflexivity | ].
    intros h' Hin. apply Hl. right. exact Hin.
Qed.

End MoreLemmas.

(** ** [start]: when it succeeds, what it runs, what a failure leaves *)

(** X1.  From an inactive session, [start] returns normally exactly on a host
    whose [os.name] is ['nt'] and whose [ping /?] exits with status 0 and
    prints something; the session is active afterwards exactly when [start]
    returned, and what it returns is [None]. *)
Theorem start_succeeds_exactly_when (w : env) (s : state) :
  active s = false ->
  ((exists v, result_of (start w s) = Ret v)
   <-> os_name w = "nt" /\ ping_usable w = true)
  /\ (active (state_of (start w s)) = true
      <-> exists v, result_of (start w s) = Ret v)
  /\ (forall v, result_of (start w s) = Ret v -> v = VNone).
Proof.
  intros Ha. destruct s as [a]. simpl in Ha. subst a.
  assert (Hnone : forall v, result_of (start w (mkState false)) = Ret v -> v = VNone).
  { intros v Hv. pose proof (start_inactive_cases w) as Hc.
    inversion Hc as [Hn Heq | err r Hn Hr Heq | rc out msg Hn Hr Hrc Heq
                     | Hn Hr Heq | b out Hn Hr Heq];
      rewrite <- Heq in Hv; unfold result_of in Hv; simpl in Hv;
      try discriminate Hv.
    now injection Hv as <-. }
  split; [ apply start_returns_iff | ].
  split; [ | exact Hnone ].
  rewrite start_activates_iff. split.
  - intros H. exists VNone. exact H.
  - intros [v Hv]. rewrite Hv. f_equal. now apply Hnone.
Qed.

Lemma start_succeeds_exactly_when_witness :
  (exists v, result_of (start (windows []) initial) = Ret v)
  /\ active (state_of (start (windows []) initial)) = true.
Proof.
  destruct (start_succeeds_exactly_when (windows []) initial eq_refl)
    as (Hret & Hact & _).
  assert (Hr : exists v, result_of (start (windows []) initial) = Ret v).
  { apply Hret. split; reflexivity. }
  split; [ exact Hr | ].
  apply Hact. exact Hr.
Defined.

(** X2.  When [ping /?] runs but exits with a non-zero status, [start] lets
    the [CalledProcessError] of [check_output] through: the caller gets an
    exception that [except NetBuddyException] does not catch, nothing is
    printed after the line announcing the command check, and the session
    stays inactive. *)
Theorem start_ping_nonzero_exit (w : env) (s : state) (rc : Z) (out : bytes) :
  active s = false ->
  os_name w = "nt" ->
  run_process w ["ping"; "/?"] = Exited rc out ->
  rc <> 0 ->
  exists msg,
    start w s = (Raise (mkExn CalledProcessError msg), s, checking_lines)
    /\ catches NetBuddyException (mkExn CalledProcessError msg) = false
    /\ catches Exception (mkExn CalledProcessError msg) = true.
Proof.
  intros Ha Hnt Hrun Hrc. destruct s as [a]. simpl in Ha. subst a.
  pose proof (start_inactive_cases w) as Hc.
  inversion Hc as [Hn Heq | err r Hn Hr Heq | rc' out' msg Hn Hr Hrc' Heq
                   | Hn Hr Heq | b out' Hn Hr Heq];
    try contradiction; try congruence.
  exists msg. repeat split.
Qed.

Lemma start_ping_nonzero_exit_witness :
  exists msg,
    start (windows_exit_status 1) initial
    = (Raise (mkExn CalledProcessError msg), initial, checking_lines)
    /\ catches NetBuddyException (mkExn CalledProcessError msg) = false
    /\ catches Exception (mkExn CalledProcessError msg) = true.
Proof.
  apply (start_ping_nonzero_exit (windows_exit_status 1) initial 1 usage);
    try reflexivity.
  discriminate.
Defined.

(** X3.  Whatever the host and the session state, the only command [start]
    ever runs is [ping /?], once; it runs nothing at all when a session is
    already active or when [os.name] is not ['nt']. *)
Theorem start_runs_at_most_ping_usage (w : env) (s : state) :
  execs (trace_of (start w s))
  = if active s then []
    else if String.eqb (os_name w) "nt" then [["ping"; "/?"]] else [].
Proof.
  destruct s as [[|]]; [ reflexivity | ]. simpl active. cbv iota.
  pose proof (start_inactive_cases w) as Hc.
  inversion Hc as [Hn Heq | err r Hn Hr Heq | rc out msg Hn Hr Hrc Heq
                   | Hn Hr Heq | b out Hn Hr Heq];
    try (rewrite Hn, String.eqb_refl; reflexivity).
  apply String.eqb_neq in Hn. rewrite Hn. reflexivity.
Qed.

(** X4.  A [start] that raises [NotWindowsException] (line 87) or
    [MissingCommandException] (line 91), or passes on the exception that
    [check_output] raised (line 90), found the session inactive, leaves the
    state as it was, and has not printed the line that announces a started
    session. *)
Theorem failed_check_changes_nothing (w : env) (s : state) (e : exn) :
  result_of (start w s) = Raise e ->
  exn_class e = NotWindowsException
  \/ exn_class e = MissingCommandException
  \/ result_of (check_output ["ping"; "/?"] w s) = Raise e ->
  active s = false
  /\ state_of (start w s) = s
  /\ ~ In "Session started. Run NetBuddy.help() for options."
          (prints (trace_of (start w s))).
Proof.
  intros Hr _. destruct s as [[|]]; [ discriminate Hr | ].
  split; [ reflexivity | ].
  pose proof (start_inactive_cases w) as Hc.
  inversion Hc as [Hn Heq | err r Hn Hrun Heq | rc out msg Hn Hrun Hrc Heq
                   | Hn Hrun Heq | b out Hn Hrun Heq];
    rewrite <- Heq in Hr; try discriminate Hr;
    (split; [ reflexivity | ]);
    unfold trace_of; simpl; intros Hin;
    repeat (destruct Hin as [Hin | Hin]; [ discriminate Hin | ]); exact Hin.
Qed.

Lemma failed_check_changes_nothing_witness :
  state_of (start windows_silent_ping initial) = initial.
Proof.
  destruct (failed_check_changes_nothing windows_silent_ping initial missing_command)
    as (_ & Hst & _).
  - reflexivity.
  - right. left. reflexivity.
  - exact Hst.
Defined.

(** X13.  Once a [start] has returned normally, from whatever state, another
    [start] on any host only prints the notice: it runs no check and no
    command, and the session stays active. *)
Theorem second_start_is_noop (w w' : env) (s : state) :
  (exists v, result_of (start w s) = Ret v) ->
  start w' (state_of (start w s))
  = (Ret VNone, mkState true, [Print already_active_notice]).
Proof.
  intros [v Hv]. destruct s as [[|]]; [ reflexivity | ].
  assert (Hon : active (state_of (start w (mkState false))) = true).
  { apply start_activates_iff.
    pose proof (start_inactive_cases w) as Hc.
    inversion Hc as [Hn Heq | err r Hn Hr Heq | rc out msg Hn Hr Hrc Heq
                     | Hn Hr Heq | b out Hn Hr Heq];
      rewrite <- Heq in Hv; try discriminate Hv; reflexivity. }
  destruct (state_of (start w (mkState false))) as [a]. simpl in Hon. subst a.
  reflexivity.
Qed.

Lemma second_start_is_noop_witness :
  start posix (state_of (start (windows []) initial))
  = (Ret VNone, mkState true, [Print already_active_notice]).
Proof.
  apply (second_start_is_noop (windows []) posix initial).
  exists VNone. reflexivity.
Defined.

(** ** [test_connection] on every host *)

Section Prefix.

Lemma attempted_prefix w hosts :
  exists rest, hosts = (attempted w hosts ++ rest)%list.
Proof.
  induction hosts as [| h tl IH]; simpl.
  - exists []. reflexivity.
  - destruct (launched w h).
    + destruct IH as [rest IH]. exists rest. now rewrite <- IH.
    + exists tl. reflexivity.
Qed.

Lemma attempted_length w hosts :
  (List.length (attempted w hosts) <= List.length hosts)%nat.
Proof.
  destruct (attempted_prefix w hosts) as [rest H].
  rewrite H at 2. rewrite length_app. lia.
Qed.

Lemma execs_test_connection_active w :
  execs (trace_of (test_connection w (mkState true)))
  = map ping_argv (attempted w targets).
Proof.
  pose proof (test_connection_active_cases w) as Hc.
  inversion Hc as [Hl Heq | before h after err reason Ht Hl Hn Heq];
    unfold trace_of; cbn [snd].
  - rewrite (attempted_all w targets Hl).
    change (execs (probe_events w 1 targets
                     ++ [Print (summary_line (successes w) 4
                                             (100 * successes w / 4))])
            = map ping_argv targets).
    rewrite execs_app, execs_probe_events. apply app_nil_r.
  - rewrite Ht, (attempted_until w before h after err reason Hl Hn).
    change (execs (probe_events w 1 before ++ [Exec (ping_argv h)])
            = map ping_argv (before ++ [h])).
    rewrite execs_app, execs_probe_events, map_app. reflexivity.
Qed.

Lemma test_connection_raise_cases w s e :
  result_of (test_connection w s) = Raise e ->
  (active s = false /\ e = not_started)
  \/ (active s = true
      /\ exists h err reason,
          In h targets
          /\ run_process w (ping_argv h) = NotLaunched err reason
          /\ e = mkExn (launch_error_class err) reason).
Proof.
  intros Hr. destruct s as [[|]].
  - pose proof (test_connection_active_cases w) as Hc.
    inversion Hc as [Hl Heq | before h after err reason Ht Hl Hn Heq];
      rewrite <- Heq in Hr; unfold result_of in Hr; cbn [fst] in Hr;
      [ discriminate Hr | ].
    injection Hr as <-. right. split; [ reflexivity | ].
    exists h, err, reason. split; [ | split; [ exact Hn | reflexivity ] ].
    rewrite Ht. apply in_or_app. right. left. reflexivity.
  - rewrite test_connection_inactive in Hr. unfold result_of in Hr.
    simpl in Hr. injection Hr as <-. left. split; reflexivity.
Qed.

(** The first target whose [ping] cannot be launched is determined. *)
Lemma first_not_launched_unique w (b1 b2 : list string) h1 h2 a1 a2 e1 r1 e2 r2 :
  (b1 ++ h1 :: a1 = b2 ++ h2 :: a2)%list ->
  (forall h, In h b1 -> launched w h = true) ->
  (forall h, In h b2 -> launched w h = true) ->
  run_process w (ping_argv h1) = NotLaunched e1 r1 ->
  run_process w (ping_argv h2) = NotLaunched e2 r2 ->
  b1 = b2 /\ h1 = h2.
Proof.
  revert b2. induction b1 as [| x b1 IH]; intros [| y b2] Heq L1 L2 N1 N2;
    simpl in Heq; injection Heq as Hhd Htl.
  - split; [ reflexivity | exact Hhd ].
  - exfalso. specialize (L2 y (or_introl eq_refl)). subst y.
    unfold launched in L2. rewrite N1 in L2. discriminate L2.
  - exfalso. specialize (L1 x (or_introl eq_refl)). subst x.
    unfold launched in L1. rewrite N2 in L1. discriminate L1.
  - subst y. destruct (IH b2 Htl) as [-> ->]; auto.
    + intros h Hin. apply L1. right. exact Hin.
    + intros h Hin. apply L2. right. exact Hin.
Qed.

Lemma test_connection_first_not_launched w before h after err reason :
  targets = (before ++ h :: after)%list ->
  (forall h', In h' before -> launched w h' = true) ->
  run_process w (ping_argv h) = NotLaunched err reason ->
  test_connection w (mkState true)
  = (Raise (mkExn (launch_error_class err) reason), mkState true,
     (Print "Running 4 tests:" :: probe_events w 1 before
        ++ [Exec (ping_argv h)])%list).
Proof.
  intros Ht Hl Hn.
  pose proof (test_connection_active_cases w) as Hc.
  inversion Hc as [Hall Heq | before' h' after' err' reason' Ht' Hl' Hn' Heq].
  - exfalso.
    assert (Hin : In h targets)
      by (rewrite Ht; apply in_or_app; right; left; reflexivity).
    specialize (Hall h Hin). unfold launched in Hall. rewrite Hn in Hall.
    discriminate Hall.
  - rewrite Ht in Ht'.
    destruct (first_not_launched_unique w before before' h h' after after'
                err reason err' reason' Ht' Hl Hl' Hn Hn') as [<- <-].
    rewrite Hn in Hn'. injection Hn' as <- <-. reflexivity.
Qed.

End Prefix.

(** X5.  On every host and in every state, the commands [test_connection]
    runs are the [ping] command lines of the target list, in order, up to and
    including the first one that cannot be launched; none when the session
    is inactive.  So it never runs more than four commands, and never a
    command outside that list. *)
Theorem test_connection_runs_prefix_of_targets (w : env) (s : state) :
  execs (trace_of (test_connection w s))
  = (if active s then map ping_argv (attempted w targets) else [])
  /\ (List.length (execs (trace_of (test_connection w s))) <= 4)%nat
  /\ exists rest,
      map ping_argv targets
      = (execs (trace_of (test_connection w s)) ++ rest)%list.
Proof.
  destruct s as [[|]]; simpl active; cbv iota.
  - rewrite execs_test_connection_active. split; [ reflexivity | ].
    split.
    + rewrite length_map. apply (attempted_length w targets).
    + destruct (attempted_prefix w targets) as [rest Hrest].
      exists (map ping_argv rest). rewrite <- map_app, <- Hrest. reflexivity.
  - rewrite test_connection_inactive. unfold trace_of. simpl.
    split; [ reflexivity | ]. split; [ lia | ].
    eexists. reflexivity.
Qed.

(** X6.  [test_connection] returns, rather than raises, exactly when the
    session is active and each of the four [ping] commands can be
    launched. *)
Theorem test_connection_returns_iff (w : env) (s : state) :
  (exists v, result_of (test_connection w s) = Ret v)
  <-> active s = true /\ forall h, In h targets -> launched w h = true.
Proof.
  destruct s as [[|]].
  - pose proof (test_connection_active_cases w) as Hc.
    inversion Hc as [Hl Heq | before h after err reason Ht Hl Hn Heq];
      unfold result_of; cbn [fst]; split.
    + intros _. split; [ reflexivity | exact Hl ].
    + intros _. eexists. reflexivity.
    + intros [v Hv]. discriminate Hv.
    + intros [_ Hall].
      assert (Hin : In h targets).
      { rewrite Ht. apply in_or_app. right. left. reflexivity. }
      specialize (Hall h Hin). unfold launched in Hall. rewrite Hn in Hall.
      discriminate Hall.
  - rewrite test_connection_inactive. unfold result_of. simpl. split.
    + intros [v Hv]. discriminate Hv.
    + intros [Hf _]. discriminate Hf.
Qed.

(** X7.  [test_connection] never lets a [CalledProcessError] out, and the
    only [NetBuddyException] it raises is the [NotStartedException] of the
    gate, in an inactive session.  In an active session, the first target
    whose [ping] cannot be launched ends the call with the error the
    operating system gave, whatever its class ([FileNotFoundError],
    [PermissionError] or another [OSError]), right after that command. *)
Theorem test_connection_escaping_errors (w : env) (s : state) :
  (forall e, result_of (test_connection w s) = Raise e ->
             catches CalledProcessError e = false
             /\ (catches NetBuddyException e = true ->
                 active s = false /\ e = not_started))
  /\ (forall before h after err reason,
         active s = true ->
         targets = (before ++ h :: after)%list ->
         (forall h', In h' before -> launched w h' = true) ->
         run_process w (ping_argv h) = NotLaunched err reason ->
         test_connection w s
         = (Raise (mkExn (launch_error_class err) reason), s,
            (Print "Running 4 tests:" :: probe_events w 1 before
               ++ [Exec (ping_argv h)])%list)
         /\ catches OSError (mkExn (launch_error_class err) reason) = true).
Proof.
  split.
  - intros e Hr.
    destruct (test_connection_raise_cases w s e Hr)
      as [[Ha ->] | (Ha & h & err & reason & _ & _ & ->)].
    + split; [ reflexivity | ]. intros _. split; [ exact Ha | reflexivity ].
    + split; [ destruct err; reflexivity | ].
      intros Hc. destruct err; discriminate Hc.
  - intros before h after err reason Ha Ht Hl Hn.
    destruct s as [a]. simpl in Ha. subst a.
    split; [ now apply (test_connection_first_not_launched w before h after) | ].
    destruct err; reflexivity.
Qed.

Lemma test_connection_escaping_errors_witness :
  test_connection (windows_ping_denied_at "twitter.com") (mkState true)
  = (Raise (mkExn PermissionError "[WinError 5] Access is denied"), mkState true,
     [Print "Running 4 tests:";
      Exec (ping_argv "www.google.com");
      Print (passed_line 1 "www.google.com");
      Exec (ping_argv "twitter.com")])
  /\ catches CalledProcessError
             (mkExn PermissionError "[WinError 5] Access is denied") = false.
Proof.
  destruct (test_connection_escaping_errors (windows_ping_denied_at "twitter.com")
                                            (mkState true))
    as [Hout Hfirst].
  destruct (Hfirst ["www.google.com"] "twitter.com" ["www.python.org"; "github.com"]
                   PermissionDenied "[WinError 5] Access is denied")
    as [Hrun _].
  - reflexivity.
  - reflexivity.
  - intros h' [<- | []]. reflexivity.
  - reflexivity.
  - split; [ exact Hrun | ].
    apply (Hout (mkExn PermissionError "[WinError 5] Access is denied")).
    rewrite Hrun. reflexivity.
Defined.

(** X8.  Whatever [test_connection] returns is false in a condition: it is
    [False] or [None], never [True] and never any other object, so a caller
    cannot tell success from failure by the truth of the result. *)
Theorem test_connection_never_truthy (w : env) (s : state) (v : value) :
  result_of (test_connection w s) = Ret v ->
  truthy v = false /\ (v = VBool false \/ v = VNone).
Proof.
  intros Hr. destruct s as [[|]].
  - pose proof (test_connection_active_cases w) as Hc.
    inversion Hc as [Hl Heq | before h after err reason Ht Hl Hn Heq];
      rewrite <- Heq in Hr; unfold result_of in Hr; cbn [fst] in Hr;
      [ | discriminate Hr ].
    injection Hr as <-. unfold verdict.
    destruct (successes w =? 0); simpl; auto.
  - rewrite test_connection_inactive in Hr. discriminate Hr.
Qed.

Lemma test_connection_never_truthy_witness :
  truthy VNone = false /\ (VNone = VBool false \/ VNone = VNone).
Proof.
  apply (test_connection_never_truthy (windows targets) (mkState true) VNone).
  vm_compute. reflexivity.
Defined.

(** ** [help], runs of calls, and the exceptions that get out *)

(** X9.  [help] has no gate: in any state, active or not, and on any host it
    returns [None] after printing the 27 lines of its table, runs no command
    and leaves the session state alone. *)
Theorem help_needs_no_session (w : env) (s : state) :
  result_of (help w s) = Ret VNone
  /\ state_of (help w s) = s
  /\ prints (trace_of (help w s)) = help_lines
  /\ List.length (prints (trace_of (help w s))) = 27%nat
  /\ execs (trace_of (help w s)) = [].
Proof.
  rewrite help_unfold. unfold result_of, state_of, trace_of. cbn [fst snd].
  rewrite prints_map_Print, execs_map_Print. repeat split.
Qed.

(** X10.  From the state the class is created in, no run of calls that
    contains neither [start] nor the constructor makes the session active;
    after such a run, any further call other than those two runs no
    command. *)
Theorem no_session_without_start (calls : list (op * env)) :
  (forall o w, In (o, w) calls -> o <> OpStart /\ o <> OpConstruct) ->
  active (run calls initial) = false
  /\ forall o w, o <> OpStart -> o <> OpConstruct ->
                 execs (trace_of (call o w (run calls initial))) = [].
Proof.
  intros Hno.
  assert (Hoff : active (run calls initial) = false)
    by (apply run_without_start; [ reflexivity | exact Hno ]).
  split; [ exact Hoff | ].
  intros o w H1 H2. destruct (run calls initial) as [a]. simpl in Hoff. subst a.
  destruct o; try contradiction; unfold call.
  - reflexivity.
  - rewrite help_unfold. apply execs_map_Print.
  - reflexivity.
  - reflexivity.
Qed.

Lemma no_session_without_start_witness :
  active (run [(OpTest, windows targets); (OpQuit, posix); (OpHelp, posix)]
              initial) = false.
Proof.
  refine (proj1 (no_session_without_start
                   [(OpTest, windows targets); (OpQuit, posix); (OpHelp, posix)] _)).
  intros o w [H | [H | [H | []]]]; injection H as <- _; split; discriminate.
Defined.

(** X11.  On hosts whose [os.name] is not ['nt'], no run of calls from the
    initial state ever makes the session active, with or without [start];
    so every gated call made after it raises [NotStartedException] without
    printing or running anything. *)
Theorem never_active_off_windows (calls : list (op * env)) :
  all_envs (fun w => os_name w <> "nt") calls ->
  active (run calls initial) = false
  /\ forall o w, gated o = true ->
                 call o w (run calls initial)
                 = (Raise not_started, run calls initial, []).
Proof.
  intros Hall.
  assert (Hoff : forall s, active s = false -> active (run calls s) = false).
  { induction calls as [| [o w] rest IH]; intros s Hs; simpl.
    - exact Hs.
    - apply IH.
      + intros o' w' Hin. apply (Hall o' w'). right. exact Hin.
      + destruct (active (state_of (call o w s))) eqn:Hon; [ | reflexivity ].
        destruct (call_turns_on o w s Hs Hon) as (_ & _ & _ & Hnt & _).
        exfalso. apply (Hall o w (or_introl eq_refl)). exact Hnt. }
  specialize (Hoff initial eq_refl).
  split; [ exact Hoff | ].
  intros o w Hg. destruct (run calls initial) as [a]. simpl in Hoff. subst a.
  destruct o; simpl in Hg; try discriminate Hg; reflexivity.
Qed.

Lemma never_active_off_windows_witness :
  active (run [(OpStart, posix); (OpConstruct, posix); (OpTest, posix)] initial)
  = false.
Proof.
  refine (proj1 (never_active_off_windows
                   [(OpStart, posix); (OpConstruct, posix); (OpTest, posix)] _)).
  intros o w [H | [H | [H | []]]]; injection H as _ <-; simpl; discriminate.
Defined.

(** X12.  Of the exception classes the module defines, a call raises only
    those its own [raise] statements name: [start] and the constructor
    [NotWindowsException] or [MissingCommandException], [test_connection]
    and [test] [NotStartedException], [quit] and [help] none.
    [QuestionableException] and a bare [NetBuddyException] are never
    raised. *)
Theorem netbuddy_exceptions_raised (o : op) (w : env) (s : state) (e : exn) :
  result_of (call o w s) = Raise e ->
  catches NetBuddyException e = true ->
  In (exn_class e) (netbuddy_raises o)
  /\ exn_class e <> QuestionableException
  /\ exn_class e <> NetBuddyException.
Proof.
  intros Hr Hnb.
  assert (Hin : In (exn_class e) (netbuddy_raises o)).
  { assert (Hstart : forall e', result_of (start w s) = Raise e' ->
                                catches NetBuddyException e' = true ->
                                In (exn_class e') (netbuddy_raises OpStart)).
    { intros e' He' Hc'. destruct s as [[|]]; [ discriminate He' | ].
      pose proof (start_inactive_cases w) as Hc.
      inversion Hc as [Hn Heq | err r Hn Hrun Heq | rc out msg Hn Hrun Hrc Heq
                       | Hn Hrun Heq | b out Hn Hrun Heq];
        rewrite <- Heq in He'; unfold result_of in He'; cbn [fst] in He';
        try discriminate He'; injection He' as <-;
        try (simpl; tauto).
      - destruct err; discriminate Hc'.
      - discriminate Hc'. }
    destruct o; unfold call in Hr.
    - rewrite construct_unfold in Hr. unfold result_of at 1 in Hr. cbn [fst] in Hr.
      destruct (result_of (start w s)) as [v | e'] eqn:Hs; [ discriminate Hr | ].
      injection Hr as <-. now apply Hstart.
    - now apply Hstart.
    - discriminate Hr.
    - rewrite help_unfold in Hr. discriminate Hr.
    - destruct (test_connection_raise_cases w s e Hr)
        as [[_ ->] | (_ & h & err & reason & _ & _ & ->)];
        [ simpl; tauto | destruct err; discriminate Hnb ].
    - unfold test in Hr.
      destruct (test_connection_raise_cases w s e Hr)
        as [[_ ->] | (_ & h & err & reason & _ & _ & ->)];
        [ simpl; tauto | destruct err; discriminate Hnb ]. }
  split; [ exact Hin | ].
  destruct o; simpl in Hin;
    repeat (destruct Hin as [<- | Hin]); try contradiction;
    split; discriminate.
Qed.

Lemma netbuddy_exceptions_raised_witness :
  In (exn_class not_windows) (netbuddy_raises OpConstruct).
Proof.
  refine (proj1 (netbuddy_exceptions_raised OpConstruct posix initial not_windows _ _));
    reflexivity.
Defined.
